(** * AI Hub Backend ([server.py]): the three route handlers

    A shallow embedding of the FastAPI handlers [health], [root] and
    [chat] of [server.py], and the properties of the gateway's contract
    that hold (or fail) on them.

    Conventions of the embedding:
    - a Python [str] is the list of its Unicode code points;
    - a value decoded from the JSON body is a [value]; a [dict] is a
      [gmap] from [str] keys;
    - what lives outside the module (the environment variable, the file
      next to the module, the builtin [float], the OpenAI client) is a
      [Variable] of the section [Server]: every handler is a function of
      it, and the theorems hold for every behaviour of it;
    - a handler runs in the monad [M E]: it threads the log of outbound
      provider calls and either returns or raises an [E]. *)

From Stdlib Require Import ZArith NArith List String Ascii Lia.
From Stdlib Require Import Floats.SpecFloat.
From stdpp Require Import gmap list fin_maps.

Set Warnings "-register-all".
Local Open Scope Z_scope.

(** ** Python strings *)

Module Str.

(** Code points of a [str]. *)
Abbreviation str := (list N).

(** An ASCII literal as a [str] (one code point per character; only
    used on literals below U+0080). *)
Definition lit (s : string) : str :=
  List.map N_of_ascii (list_ascii_of_string s).

(** [str.isspace] on one code point: the table of CPython's
    [_PyUnicode_IsWhitespace]. *)
Definition isspace (c : N) : bool :=
  ((0x09 <=? c) && (c <=? 0x0D) || (0x1C <=? c) && (c <=? 0x20)
   || (c =? 0x85) || (c =? 0xA0) || (c =? 0x1680)
   || (0x2000 <=? c) && (c <=? 0x200A)
   || (c =? 0x2028) || (c =? 0x2029) || (c =? 0x202F)
   || (c =? 0x205F) || (c =? 0x3000))%N.

Fixpoint lstrip (s : str) : str :=
  match s with
  | c :: s' => if isspace c then lstrip s' else s
  | [] => []
  end.

Definition rstrip (s : str) : str := reverse (lstrip (reverse s)).

(** [s.strip()] with no argument. *)
Definition strip (s : str) : str := rstrip (lstrip s).

(** A string of whitespace only (the empty string included). *)
Definition blank (s : str) : bool := forallb isspace s.

(** Truth value of a [str]: non-empty. *)
Definition nonempty (s : str) : bool :=
  match s with [] => false | _ :: _ => true end.

End Str.
Import Str.

(** ** Values decoded from a JSON body *)

Inductive value : Type :=
| VNone
| VBool (b : bool)
| VInt (z : Z)
| VFloat (f : spec_float)
| VStr (s : str)
| VList (l : list value)
| VDict (d : gmap str value).

(** Python's truth value testing, as used by [not] and [or]. *)
Definition truthy (v : value) : bool :=
  match v with
  | VNone => false
  | VBool b => b
  | VInt z => negb (z =? 0)
  | VFloat (S754_zero _) => false
  | VFloat _ => true
  | VStr s => nonempty s
  | VList l => match l with [] => false | _ :: _ => true end
  | VDict d => negb (Nat.eqb (size d) 0)
  end.

(** [a or b]. *)
Definition py_or (a b : value) : value := if truthy a then a else b.

(** [d.get(k)] and [d.get(k, dflt)]. *)
Definition get (d : gmap str value) (k : str) : value :=
  default VNone (d !! k).

Definition get_default (d : gmap str value) (k : str) (dflt : value) : value :=
  default dflt (d !! k).

(** [k in d and isinstance(d[k], list)]. *)
Definition is_list_at (d : gmap str value) (k : str) : bool :=
  match d !! k with Some (VList _) => true | _ => false end.

(** The double nearest to 0.7 (0x3FE6666666666666). *)
Definition float_0_7 : spec_float := S754_finite false 6305039478318694 (-53).

(** [float(n)] for an [int] in range: round to nearest, ties to even. *)
Definition float_of_int (z : Z) : spec_float := binary_normalize 53 1024 z 0 false.

(** ** Exceptions, outcomes and the handler monad *)

(** An exception that derives from [Exception]: its class name and its
    [str(e)]. *)
Record exception : Type := Exception { exc_class : string; exc_str : str }.

(** What FastAPI's [HTTPException(status_code=..., detail=...)] carries. *)
Record http_exception : Type :=
  HTTPException { status_code : Z; detail : str }.

(** Result of a call into code outside the module. *)
Inductive outcome (A : Type) : Type :=
| Returns (a : A)
| Raises (e : exception).
Arguments Returns {A} a.
Arguments Raises {A} e.

(** The keyword arguments of [client.chat.completions.create]. *)
Record completion_request : Type := CompletionRequest {
  req_model : value;
  req_messages : list value;
  req_temperature : spec_float
}.

(** The part of the provider's answer the handler reads: for each
    choice, its [message.content] ([None] when the provider gave none). *)
Record completion : Type := Completion { choices : list (option str) }.

(** A computation that logs the provider calls it makes and returns an
    [A] or raises an [E]. *)
Definition M (E A : Type) : Type :=
  list completion_request -> list completion_request * (E + A).

#[global] Instance M_ret {E} : MRet (M E) := fun A a log => (log, inr a).
#[global] Instance M_bind {E} : MBind (M E) := fun A B k m log =>
  match m log with
  | (log', inr a) => k a log'
  | (log', inl e) => (log', inl e)
  end.

Definition raise {E A} (e : E) : M E A := fun log => (log, inl e).

(** [try: body / except Exception as e: handler e]. *)
Definition try_except {E A} (body : M exception A) (handler : exception -> M E A)
  : M E A := fun log =>
  match body log with
  | (log', inr a) => (log', inr a)
  | (log', inl e) => handler e log'
  end.

(** An outcome of outside code, in the monad. *)
Definition of_outcome {A} (o : outcome A) : M exception A :=
  match o with
  | Returns a => mret a
  | Raises e => raise e
  end.

(** [l[0]]. *)
Definition item0 {A} (l : list A) : M exception A :=
  match l with
  | a :: _ => mret a
  | [] => raise (Exception "IndexError" (lit "list index out of range"))
  end.

(** Runs a handler from an empty log. *)
Definition run {E A} (m : M E A) : list completion_request * (E + A) := m [].

(** ** The handlers *)

(** What [HTMLResponse(content)] carries; its status code defaults to 200. *)
Record html_response : Type :=
  MkHTMLResponse { html_content : str; html_status : Z }.

Definition HTMLResponse (content : str) : html_response :=
  MkHTMLResponse content 200.

(** The status code FastAPI answers with: 200 for a returned value,
    the exception's code for an [HTTPException]. *)
Definition status {A} (r : http_exception + A) : Z :=
  match r with
  | inl e => status_code e
  | inr _ => 200
  end.

(** ** Test doubles

    Concrete stand-ins for the outside world, on which the handlers are
    evaluated in the examples below. *)

Module Sample.

Definition api_key : option str := Some (lit "sk-test").

Definition half : spec_float := S754_finite false 4503599627370496 (-53).

(** A [float] on strings that knows the text [0.5] only. *)
Definition float_of_str (s : str) : outcome spec_float :=
  if bool_decide (strip s = lit "0.5") then Returns half
  else Raises (Exception "ValueError"
                 (lit "could not convert string to float: '" ++ s ++ lit "'")).

Definition type_name (v : value) : str :=
  match v with
  | VNone => lit "NoneType"
  | VBool _ => lit "bool"
  | VInt _ => lit "int"
  | VFloat _ => lit "float"
  | VStr _ => lit "str"
  | VList _ => lit "list"
  | VDict _ => lit "dict"
  end.

Definition float_error (v : value) : exception :=
  match v with
  | VInt _ => Exception "OverflowError" (lit "int too large to convert to float")
  | _ => Exception "TypeError"
           (lit "float() argument must be a string or a real number, not '"
              ++ type_name v ++ lit "'")
  end.

(** A provider that answers every request with one choice. *)
Definition create_ok (req : completion_request) : outcome completion :=
  Returns (Completion [Some (lit "Hi!")]).

(** A provider that cannot be reached. *)
Definition create_down (req : completion_request) : outcome completion :=
  Raises (Exception "APIConnectionError" (lit "Connection error.")).

(** A provider that answers with no choice at all. *)
Definition create_empty (req : completion_request) : outcome completion :=
  Returns (Completion []).

Definition user_message (content : str) : value :=
  VDict {[ lit "role" := VStr (lit "user"); lit "content" := VStr content ]}.

(** [{"input": "  Hello  "}] *)
Definition body_hello : gmap str value :=
  {[ lit "input" := VStr (lit "  Hello  ") ]}.

(** [{"input": "   "}] *)
Definition body_blank : gmap str value :=
  {[ lit "input" := VStr (lit "   ") ]}.

(** [{"messages": []}] *)
Definition body_no_messages : gmap str value :=
  {[ lit "messages" := VList [] ]}.

(** [{"messages": [{"role": "user", "content": "Merhaba"}, 7], "input": "x",
      "model": "gpt-4o"}]: the second message is no role/content pair. *)
Definition body_both : gmap str value :=
  {[ lit "messages" := VList [user_message (lit "Merhaba"); VInt 7];
     lit "input" := VStr (lit "x");
     lit "model" := VStr (lit "gpt-4o") ]}.

(** [{"input": "hi", "temperature": null}] *)
Definition body_bad_temperature : gmap str value :=
  {[ lit "input" := VStr (lit "hi"); lit "temperature" := VNone ]}.

(** An [index.html] whose bytes are not UTF-8. *)
Definition undecodable : exception :=
  Exception "UnicodeDecodeError"
    (lit "'utf-8' codec can't decode byte 0xff in position 0: invalid start byte").

(** [body_both] with a field the handler does not know. *)
Definition body_extra : gmap str value :=
  <[ lit "user" := VStr (lit "cem") ]> body_both.

(** [{"input": "hi", "temperature": 0.5}] *)
Definition body_half : gmap str value :=
  {[ lit "input" := VStr (lit "hi"); lit "temperature" := VFloat half ]}.

End Sample.

(** State of [index.html] next to the module: absent ([idx.exists()] is
    false), or present with the outcome of
    [idx.read_text(encoding="utf-8")]. *)
Inductive index_file : Type :=
| Missing
| Present (read_text : outcome str).

Section Server.

(** [os.getenv("OPENAI_API_KEY")], read once at import. *)
Variable OPENAI_API_KEY : option str.

(** The file [Path(__file__).with_name("index.html")]. *)
Variable idx : index_file.

(** The builtin [float] on a [str] (the text-to-double conversion of
    the interpreter, [ValueError] when the text is no number), and the
    exception it raises on an argument it refuses ([TypeError], or
    [OverflowError] for an [int] out of range). *)
Variable float_of_str : str -> outcome spec_float.
Variable float_error : value -> exception.

(** [client.chat.completions.create(model=, messages=, temperature=)]:
    the answer of the provider to a request. *)
Variable create : completion_request -> outcome completion.

(** Truth value of [OPENAI_API_KEY]: set and not the empty string. *)
Definition key_set : bool :=
  match OPENAI_API_KEY with
  | Some s => nonempty s
  | None => false
  end.

(** [float(v)]. *)
Definition py_float (v : value) : outcome spec_float :=
  match v with
  | VFloat f => Returns f
  | VInt z =>
      match float_of_int z with
      | S754_infinity _ => Raises (float_error v)
      | f => Returns f
      end
  | VBool b => Returns (float_of_int (if b then 1 else 0))
  | VStr s => float_of_str s
  | VNone | VList _ | VDict _ => Raises (float_error v)
  end.

(** The provider call: logged, then answered by [create]. *)
Definition call_create (req : completion_request) : M exception completion :=
  fun log => of_outcome (create req) (log ++ [req]).

(** [GET /api/health] *)
Definition health : gmap str value :=
  {[ lit "ok" := VBool true;
     lit "provider" := VStr (if key_set then lit "openai" else lit "unset") ]}.

(** The fallback page: the last word is "bulunamad" followed by
    U+0131 (dotless i). *)
Definition fallback_html : str :=
  lit "<h1>AI Hub Backend</h1><p>Index bulunamad" ++ [0x131%N] ++ lit ".</p>".

(** [GET /]: [Raises e] is an exception that leaves the handler. *)
Definition root : outcome html_response :=
  match idx with
  | Present read_text =>
      match read_text with
      | Returns text => Returns (HTMLResponse text)
      | Raises e => Raises e
      end
  | Missing => Returns (HTMLResponse fallback_html)
  end.

Definition default_model : value := VStr (lit "gpt-4o-mini").

Definition validation_detail : str :=
  lit "Provide 'input' (string) or 'messages' (list).".

(** [model = body.get("model") or "gpt-4o-mini"] *)
Definition resolve_model (body : gmap str value) : value :=
  py_or (get body (lit "model")) default_model.

(** The [if]/[else] that builds [messages]. *)
Definition resolve_messages (body : gmap str value)
  : M http_exception (list value) :=
  match body !! lit "messages" with
  | Some (VList messages) => mret messages
  | _ =>
      match get body (lit "input") with
      | VStr user_text =>
          if negb (nonempty (strip user_text))
          then raise (HTTPException 400 validation_detail)
          else mret [VDict {[ lit "role" := VStr (lit "user");
                              lit "content" := VStr (strip user_text) ]}]
      | _ => raise (HTTPException 400 validation_detail)
      end
  end.

(** [float(body.get("temperature", 0.7))] *)
Definition temperature (body : gmap str value) : outcome spec_float :=
  py_float (get_default body (lit "temperature") (VFloat float_0_7)).

(** The body of the [try]: the arguments are evaluated, then the call is
    made, then the first choice is read. *)
Definition complete (body : gmap str value) (model : value)
    (messages : list value) : M exception (gmap str value) :=
  t ← of_outcome (temperature body);
  resp ← call_create (CompletionRequest model messages t);
  text ← item0 (choices resp);
  mret ({[ lit "model" := model;
           lit "output" := from_option VStr VNone text ]} : gmap str value).

(** [POST /api/chat] *)
Definition chat (body : gmap str value) : M http_exception (gmap str value) :=
  if negb key_set
  then raise (HTTPException 500 (lit "OPENAI_API_KEY missing"))
  else
    let model := resolve_model body in
    messages ← resolve_messages body;
    try_except (complete body model messages)
      (fun e => raise (HTTPException 500 (lit "OpenAI error: " ++ exc_str e))).

(** The log of provider calls and the result of a chat request. *)
Definition calls (body : gmap str value) : list completion_request :=
  fst (run (chat body)).

Definition result (body : gmap str value) : http_exception + gmap str value :=
  snd (run (chat body)).


(** The ChatRequest invariant in the words of the data model: [messages]
    is a non-empty sequence, or [input] is a string that is non-empty
    after trimming. *)
Definition ChatRequest_invariant (body : gmap str value) : Prop :=
  (exists l, body !! lit "messages" = Some (VList l) /\ l <> [])
  \/ (exists s, body !! lit "input" = Some (VStr s) /\ strip s <> []).

(** The shape the handler lets through: [messages] is a sequence, or
    else [input] is a string that is non-empty after trimming. *)
Definition accepted_shape (body : gmap str value) : Prop :=
  (exists l, body !! lit "messages" = Some (VList l))
  \/ (is_list_at body (lit "messages") = false
      /\ exists s, body !! lit "input" = Some (VStr s) /\ strip s <> []).

(** The message built from a bare [input]. *)
Definition user_message_of (user_text : str) : value :=
  VDict {[ lit "role" := VStr (lit "user");
           lit "content" := VStr (strip user_text) ]}.

(** The request the handler sends, once the arguments are evaluated. *)
Definition request_of (body : gmap str value) (messages : list value)
    (t : spec_float) : completion_request :=
  CompletionRequest (resolve_model body) messages t.

(** A run of the [try] block with its [except] clause, case by case. *)
Definition guarded (body : gmap str value) (messages : list value)
  : list completion_request * (http_exception + gmap str value) :=
  let provider_error e :=
    inl (HTTPException 500 (lit "OpenAI error: " ++ exc_str e)) in
  match temperature body with
  | Raises e => ([], provider_error e)
  | Returns t =>
      let req := request_of body messages t in
      ([req],
       match create req with
       | Raises e => provider_error e
       | Returns resp =>
           match choices resp with
           | [] => provider_error
                     (Exception "IndexError" (lit "list index out of range"))
           | text :: _ =>
               inr {[ lit "model" := resolve_model body;
                      lit "output" := from_option VStr VNone text ]}
           end
       end)
  end.

(** The values [float] refuses whatever their content: [None], a list,
    a dict. *)
Definition not_a_number (v : value) : bool :=
  match v with
  | VNone | VList _ | VDict _ => true
  | _ => false
  end.

(** ** Trimming *)

Lemma lstrip_split (s : str) :
  exists l, s = l ++ lstrip s /\ blank l = true.
Proof.
  induction s as [|c s [l [Hs Hl]]]; [by exists []|].
  simpl. destruct (isspace c) eqn:Hc.
  - exists (c :: l). simpl. rewrite Hc, Hl. by rewrite <- Hs.
  - by exists [].
Qed.

Lemma lstrip_head (s : str) (c : N) :
  head (lstrip s) = Some c -> isspace c = false.
Proof.
  induction s as [|a s IH]; simpl; [done|].
  destruct (isspace a) eqn:Ha; [done|]. simpl. by intros [= <-].
Qed.

Lemma lstrip_nil (s : str) : lstrip s = [] <-> blank s = true.
Proof.
  induction s as [|a s IH]; simpl; [done|].
  destruct (isspace a); simpl; [done|]. split; discriminate.
Qed.

Lemma blank_app (l r : str) : blank (l ++ r) = blank l && blank r.
Proof. apply forallb_app. Qed.

Lemma blank_reverse (s : str) : blank (reverse s) = blank s.
Proof.
  induction s as [|a s IH]; [done|].
  rewrite reverse_cons, blank_app, IH. simpl. rewrite andb_true_r.
  apply andb_comm.
Qed.

Lemma blank_lstrip (s : str) : blank (lstrip s) = blank s.
Proof.
  induction s as [|a s IH]; simpl; [done|].
  destruct (isspace a) eqn:Ha; simpl; [done|]. by rewrite Ha.
Qed.

Lemma rstrip_split (s : str) :
  exists r, s = rstrip s ++ r /\ blank r = true.
Proof.
  destruct (lstrip_split (reverse s)) as [l [Hs Hl]].
  exists (reverse l). split; [|by rewrite blank_reverse].
  unfold rstrip. rewrite <- reverse_app, <- Hs. by rewrite reverse_involutive.
Qed.

Lemma rstrip_last (s : str) (c : N) :
  last (rstrip s) = Some c -> isspace c = false.
Proof. unfold rstrip. rewrite last_reverse. apply lstrip_head. Qed.

Lemma rstrip_head (s : str) (c : N) :
  (forall a, head s = Some a -> isspace a = false) ->
  head (rstrip s) = Some c -> isspace c = false.
Proof.
  intros Hs Hc. destruct (rstrip_split s) as [r [Heq _]].
  apply Hs. rewrite Heq. destruct (rstrip s); [done|]. exact Hc.
Qed.

(** [strip] is blank exactly on the strings of whitespace. *)
Lemma strip_nil (s : str) : strip s = [] <-> blank s = true.
Proof.
  unfold strip, rstrip. rewrite <- blank_lstrip, <- (blank_reverse (lstrip s)).
  rewrite <- lstrip_nil. split.
  - intros H. apply (f_equal reverse) in H.
    by rewrite reverse_involutive in H.
  - by intros ->.
Qed.

Lemma strip_nonempty (s : str) : nonempty (strip s) = negb (blank s).
Proof.
  destruct (blank s) eqn:Hb.
  - apply strip_nil in Hb. by rewrite Hb.
  - destruct (strip s) eqn:Hs; [|done].
    apply strip_nil in Hs. congruence.
Qed.

(** What [strip] returns: the input without a blank prefix and a blank
    suffix, and with no whitespace left at either end. *)
Lemma strip_spec (s : str) :
  exists l r, s = l ++ strip s ++ r /\ blank l = true /\ blank r = true
    /\ (forall c, head (strip s) = Some c -> isspace c = false)
    /\ (forall c, last (strip s) = Some c -> isspace c = false).
Proof.
  destruct (lstrip_split s) as [l [Hl Bl]].
  destruct (rstrip_split (lstrip s)) as [r [Hr Br]].
  exists l, r. unfold strip. repeat split; try done.
  - by rewrite <- Hr.
  - intros c. apply rstrip_head. intros a. apply lstrip_head.
  - apply rstrip_last.
Qed.

(** ** How a chat request runs *)

(** [resolve_messages] makes no call: it leaves the log alone. *)
Lemma resolve_messages_log (body : gmap str value) (log : list completion_request) :
  resolve_messages body log = (log, snd (run (resolve_messages body))).
Proof.
  unfold resolve_messages, run.
  destruct (body !! lit "messages") as [[]|]; try done;
    destruct (get body (lit "input")); try done;
    by destruct (negb _).
Qed.

Lemma resolve_messages_cases (body : gmap str value) :
  (exists e, run (resolve_messages body) = ([], inl e))
  \/ (exists l, run (resolve_messages body) = ([], inr l)).
Proof.
  unfold run. rewrite resolve_messages_log.
  destruct (snd _) as [e|l]; [left; by exists e|right; by exists l].
Qed.

(** The three ways [resolve_messages] ends. *)
Lemma resolve_messages_list (body : gmap str value) (l : list value) :
  body !! lit "messages" = Some (VList l) ->
  run (resolve_messages body) = ([], inr l).
Proof. intros H. unfold run, resolve_messages. by rewrite H. Qed.

Lemma resolve_messages_input (body : gmap str value) (s : str) :
  is_list_at body (lit "messages") = false ->
  body !! lit "input" = Some (VStr s) ->
  blank s = false ->
  run (resolve_messages body) = ([], inr [user_message_of s]).
Proof.
  intros Hm Hi Hb. unfold run, resolve_messages, is_list_at, get in *.
  rewrite Hi. simpl. rewrite strip_nonempty, Hb. simpl.
  by destruct (body !! lit "messages") as [[]|].
Qed.

Lemma resolve_messages_reject (body : gmap str value) :
  is_list_at body (lit "messages") = false ->
  (forall s, body !! lit "input" = Some (VStr s) -> blank s = true) ->
  run (resolve_messages body)
  = ([], inl (HTTPException 400 validation_detail)).
Proof.
  intros Hm Hi. unfold run, resolve_messages, is_list_at, get in *.
  destruct (body !! lit "messages") as [[]|]; try done;
    (destruct (body !! lit "input") as [[]|]; try done;
     simpl; by rewrite strip_nonempty, (Hi _ eq_refl)).
Qed.

Lemma chat_guarded (body : gmap str value) (messages : list value) :
  key_set = true ->
  run (resolve_messages body) = ([], inr messages) ->
  run (chat body) = guarded body messages.
Proof.
  intros Hk Hm. unfold run, chat, guarded, request_of. rewrite Hk. simpl.
  unfold mbind, M_bind. rewrite resolve_messages_log, Hm. simpl.
  unfold try_except, complete, mbind, M_bind, call_create.
  destruct (temperature body) as [t|e]; simpl; [|done].
  destruct (create _) as [resp|e]; simpl; [|done].
  by destruct (choices resp) as [|text ?].
Qed.

Lemma chat_rejected (body : gmap str value) (e : http_exception) :
  key_set = true ->
  run (resolve_messages body) = ([], inl e) ->
  run (chat body) = ([], inl e).
Proof.
  intros Hk Hm. unfold run, chat. rewrite Hk. simpl.
  unfold mbind, M_bind. by rewrite resolve_messages_log, Hm.
Qed.

Lemma chat_no_key (body : gmap str value) :
  key_set = false ->
  run (chat body) = ([], inl (HTTPException 500 (lit "OPENAI_API_KEY missing"))).
Proof. intros Hk. unfold run, chat. by rewrite Hk. Qed.

(** Every call in a guarded run is the request built from the body. *)
Lemma guarded_calls (body : gmap str value) (messages : list value) :
  fst (guarded body messages)
  = match temperature body with
    | Returns t => [request_of body messages t]
    | Raises _ => []
    end.
Proof. unfold guarded. by destruct (temperature body). Qed.

Lemma chat_calls_guarded (body : gmap str value) (messages : list value) :
  key_set = true ->
  run (resolve_messages body) = ([], inr messages) ->
  calls body = match temperature body with
               | Returns t => [request_of body messages t]
               | Raises _ => []
               end.
Proof.
  intros Hk Hm. unfold calls. rewrite (chat_guarded _ _ Hk Hm).
  apply guarded_calls.
Qed.

(** Whatever the key, a call that is made carries the resolved messages
    and the resolved model. *)
Lemma chat_calls_resolved (body : gmap str value) (messages : list value)
    (c : completion_request) :
  run (resolve_messages body) = ([], inr messages) ->
  c ∈ calls body ->
  req_messages c = messages /\ req_model c = resolve_model body.
Proof.
  intros Hm Hc. destruct key_set eqn:Hk.
  - rewrite (chat_calls_guarded _ _ Hk Hm) in Hc.
    destruct (temperature body); [|by apply elem_of_nil in Hc].
    by apply list_elem_of_singleton in Hc as ->.
  - unfold calls in Hc. rewrite (chat_no_key _ Hk) in Hc.
    by apply elem_of_nil in Hc.
Qed.

(** ** The chat proxy: credential and validation *)

(** C5: without a credential every POST to /api/chat, whatever its body,
    fails with HTTP 500 and detail "OPENAI_API_KEY missing" before any
    validation, and no provider call is made. *)
Theorem chat_missing_key_500 (body : gmap str value) :
  key_set = false ->
  run (chat body)
  = ([], inl (HTTPException 500 (lit "OPENAI_API_KEY missing")))
  /\ status (result body) = 500
  /\ calls body = [].
Proof.
  intros Hk. unfold result, calls. by rewrite (chat_no_key _ Hk).
Qed.

(** C4: with a credential, a body whose [messages] is absent or no list
    and whose [input] is absent, no string, or blank after trimming fails
    with HTTP 400 and the fixed detail, and no provider call is made. *)
Theorem chat_blank_input_400 (body : gmap str value) :
  key_set = true ->
  is_list_at body (lit "messages") = false ->
  (forall s, body !! lit "input" = Some (VStr s) -> strip s = []) ->
  run (chat body)
  = ([], inl (HTTPException 400
                (lit "Provide 'input' (string) or 'messages' (list).")))
  /\ status (result body) = 400
  /\ calls body = [].
Proof.
  intros Hk Hm Hi.
  assert (run (chat body) = ([], inl (HTTPException 400 validation_detail))) as H.
  { apply chat_rejected; [done|]. apply resolve_messages_reject; [done|].
    intros s Hs. apply strip_nil. by apply Hi. }
  unfold result, calls. by rewrite H.
Qed.

(** C2: when [messages] is absent or no list and [input] is a string with
    non-whitespace content, the provider call receives the one-element
    list [{"role": "user", "content": t}] with [t] the trimmed input: [t]
    is the input without a blank prefix and a blank suffix, and neither
    begins nor ends with whitespace. *)
Theorem chat_input_normalized (body : gmap str value) (s : str) :
  is_list_at body (lit "messages") = false ->
  body !! lit "input" = Some (VStr s) ->
  blank s = false ->
  let messages :=
    [VDict {[ lit "role" := VStr (lit "user");
              lit "content" := VStr (strip s) ]}] in
  run (resolve_messages body) = ([], inr messages)
  /\ (forall c, c ∈ calls body -> req_messages c = messages)
  /\ (key_set = true ->
      calls body = match temperature body with
                   | Returns t =>
                       [CompletionRequest (resolve_model body) messages t]
                   | Raises _ => []
                   end)
  /\ (exists l r, s = l ++ strip s ++ r /\ blank l = true /\ blank r = true
        /\ (forall c, head (strip s) = Some c -> isspace c = false)
        /\ (forall c, last (strip s) = Some c -> isspace c = false)).
Proof.
  intros Hm Hi Hb messages.
  pose proof (resolve_messages_input _ _ Hm Hi Hb) as Hr.
  repeat split.
  - exact Hr.
  - intros c Hc. by destruct (chat_calls_resolved _ _ _ Hr Hc).
  - intros Hk. by apply chat_calls_guarded.
  - apply strip_spec.
Qed.

(** ** The chat proxy: [messages] passes through *)

(** Two bodies that differ in [input] at most. *)
Lemma chat_same_but_input (body body' : gmap str value) (l : list value) :
  body !! lit "messages" = Some (VList l) ->
  (forall k, k <> lit "input" -> body' !! k = body !! k) ->
  run (chat body') = run (chat body).
Proof.
  intros Hm Hk. destruct key_set eqn:Hkey.
  - assert (body' !! lit "messages" = Some (VList l)) as Hm'.
    { by rewrite Hk. }
    rewrite (chat_guarded body l), (chat_guarded body' l);
      try done; try by apply resolve_messages_list.
    unfold guarded, request_of, resolve_model, temperature, get, get_default.
    by rewrite !Hk.
  - by rewrite !chat_no_key.
Qed.

(** C3: a [messages] field that is a list is the provider call's message
    list as it stands, whatever its elements are, and the run of the
    request does not depend on [input]: setting, changing or removing it
    changes neither the calls nor the result. *)
Theorem chat_messages_verbatim (body : gmap str value) (l : list value) :
  body !! lit "messages" = Some (VList l) ->
  run (resolve_messages body) = ([], inr l)
  /\ (forall c, c ∈ calls body -> req_messages c = l)
  /\ (key_set = true ->
      calls body = match temperature body with
                   | Returns t => [CompletionRequest (resolve_model body) l t]
                   | Raises _ => []
                   end)
  /\ (forall v, run (chat (<[lit "input" := v]> body)) = run (chat body))
  /\ run (chat (delete (lit "input") body)) = run (chat body).
Proof.
  intros Hm. pose proof (resolve_messages_list _ _ Hm) as Hr.
  repeat split.
  - exact Hr.
  - intros c Hc. by destruct (chat_calls_resolved _ _ _ Hr Hc).
  - intros Hk. by apply chat_calls_guarded.
  - intros v. apply (chat_same_but_input _ _ l Hm).
    intros k Hk. by apply lookup_insert_ne.
  - apply (chat_same_but_input _ _ l Hm).
    intros k Hk. by apply lookup_delete_ne.
Qed.

(** C10: [messages = []] is let through: the request is never answered
    with HTTP 400, whatever [input] is, and the empty list is what the
    provider call receives; a 400 needs a [messages] that is absent or no
    list. *)
Theorem chat_empty_messages_accepted (body : gmap str value) :
  body !! lit "messages" = Some (VList []) ->
  status (result body) <> 400
  /\ run (resolve_messages body) = ([], inr [])
  /\ (forall c, c ∈ calls body -> req_messages c = [])
  /\ (key_set = true ->
      calls body = match temperature body with
                   | Returns t => [CompletionRequest (resolve_model body) [] t]
                   | Raises _ => []
                   end)
  /\ (forall body' : gmap str value,
        status (result body') = 400 -> is_list_at body' (lit "messages") = false).
Proof.
  assert (forall (b : gmap str value) l,
             b !! lit "messages" = Some (VList l) -> status (result b) <> 400)
    as Hnot400.
  { intros b l Hb. unfold result. destruct key_set eqn:Hk.
    - rewrite (chat_guarded b l Hk (resolve_messages_list _ _ Hb)).
      unfold guarded. destruct (temperature b); [|done]. simpl.
      destruct (create _) as [resp|]; [|done]. by destruct (choices resp).
    - by rewrite (chat_no_key _ Hk). }
  intros Hm. pose proof (resolve_messages_list _ _ Hm) as Hr.
  repeat split.
  - by apply (Hnot400 body []).
  - exact Hr.
  - intros c Hc. by destruct (chat_calls_resolved _ _ _ Hr Hc).
  - intros Hk. by apply chat_calls_guarded.
  - intros body' H400. unfold is_list_at.
    destruct (body' !! lit "messages") as [[| | | | |l|]|] eqn:Hb; try done.
    by destruct (Hnot400 body' l Hb).
Qed.

(** C1, as the handler has it: a request that passes the credential check
    and is not answered with HTTP 400 has a [messages] field that is a
    list, possibly empty, or else an [input] that is a string non-empty
    after trimming; the message list of the provider call is that list,
    or the single user message built from the trimmed input. *)
Theorem chat_accepted_shape (body : gmap str value) :
  key_set = true ->
  status (result body) <> 400 ->
  accepted_shape body
  /\ exists messages,
      run (resolve_messages body) = ([], inr messages)
      /\ (forall c, c ∈ calls body -> req_messages c = messages)
      /\ ((exists l, body !! lit "messages" = Some (VList l) /\ messages = l)
          \/ (is_list_at body (lit "messages") = false
              /\ exists s, body !! lit "input" = Some (VStr s)
                           /\ strip s <> []
                           /\ messages = [user_message_of s])).
Proof.
  intros Hk H400. unfold accepted_shape.
  destruct (is_list_at body (lit "messages")) eqn:Hl.
  - unfold is_list_at in Hl.
    destruct (body !! lit "messages") as [[| | | | |l|]|] eqn:Hm; try done.
    pose proof (resolve_messages_list _ _ Hm) as Hr.
    split; [left; by exists l|]. exists l. repeat split; [done| |left; by exists l].
    intros c Hc. by destruct (chat_calls_resolved _ _ _ Hr Hc).
  - destruct (body !! lit "input") as [v|] eqn:Hi.
    + destruct (match v with VStr s => negb (blank s) | _ => false end) eqn:Hv.
      * destruct v as [| | | |s| |]; try done.
        apply negb_true_iff in Hv.
        pose proof (resolve_messages_input _ _ Hl Hi Hv) as Hr.
        assert (strip s <> []) as Hs.
        { intros Hs. apply strip_nil in Hs. congruence. }
        split; [right; split; [done|by exists s]|].
        exists [user_message_of s]. repeat split; [done| |right].
        -- intros c Hc. by destruct (chat_calls_resolved _ _ _ Hr Hc).
        -- split; [done|]. by exists s.
      * destruct H400. unfold result.
        rewrite (chat_rejected body (HTTPException 400 validation_detail));
          [done|done|].
        apply resolve_messages_reject; [done|].
        intros s Hs. rewrite Hi in Hs. injection Hs as ->.
        by apply negb_false_iff in Hv.
    + destruct H400. unfold result.
      rewrite (chat_rejected body (HTTPException 400 validation_detail));
        [done|done|].
      apply resolve_messages_reject; [done|]. intros s Hs. congruence.
Qed.

(** ** The chat proxy: model and provider errors *)

(** C6: the resolved model is the body's [model] when the field is there
    and true in Python's sense (for a string: non-empty), and the literal
    "gpt-4o-mini" otherwise; every provider call carries it, and a
    successful answer echoes it under [model]. *)
Theorem chat_model_resolved (body : gmap str value) :
  resolve_model body
  = match body !! lit "model" with
    | Some v => if truthy v then v else VStr (lit "gpt-4o-mini")
    | None => VStr (lit "gpt-4o-mini")
    end
  /\ (forall s, body !! lit "model" = Some (VStr s) ->
        resolve_model body
        = match s with [] => VStr (lit "gpt-4o-mini") | _ => VStr s end)
  /\ (forall c, c ∈ calls body -> req_model c = resolve_model body)
  /\ (forall r, result body = inr r ->
        r !! lit "model" = Some (resolve_model body)
        /\ exists c, calls body = [c] /\ req_model c = resolve_model body).
Proof.
  repeat split.
  - unfold resolve_model, py_or, get. by destruct (body !! lit "model").
  - intros s Hs. unfold resolve_model, py_or, get. rewrite Hs. by destruct s.
  - intros c Hc. destruct (resolve_messages_cases body) as [[e Hr]|[l Hr]].
    + unfold calls in Hc. destruct key_set eqn:Hk.
      * rewrite (chat_rejected body e Hk Hr) in Hc. by apply elem_of_nil in Hc.
      * rewrite (chat_no_key _ Hk) in Hc. by apply elem_of_nil in Hc.
    + by destruct (chat_calls_resolved _ _ _ Hr Hc).
  - revert H. unfold result. destruct key_set eqn:Hk;
      [|by rewrite (chat_no_key _ Hk)].
    destruct (resolve_messages_cases body) as [[e Hr]|[l Hr]];
      [by rewrite (chat_rejected body e Hk Hr)|].
    rewrite (chat_guarded _ _ Hk Hr). unfold guarded.
    destruct (temperature body); [|done]. simpl.
    destruct (create _) as [resp|]; [|done].
    destruct (choices resp); [done|]. intros [= <-].
    by rewrite lookup_insert_eq.
  - revert H. unfold result, calls. destruct key_set eqn:Hk;
      [|by rewrite (chat_no_key _ Hk)].
    destruct (resolve_messages_cases body) as [[e Hr]|[l Hr]];
      [by rewrite (chat_rejected body e Hk Hr)|].
    rewrite (chat_guarded _ _ Hk Hr). unfold guarded.
    destruct (temperature body) as [t|]; [|done]. simpl. intros _.
    by exists (request_of body l t).
Qed.

(** C7: once a request has passed the credential check and validation,
    whatever is raised inside the [try] comes back as HTTP 500 with
    detail "OpenAI error: " followed by [str(e)]: a failing [float] on
    [temperature] (no call is made then), an exception of the provider
    call, an answer without choices. [None], a list or a dict as
    [temperature] make [float] fail. At most one call is made. *)
Theorem chat_provider_error_500 (body : gmap str value) (messages : list value) :
  key_set = true ->
  run (resolve_messages body) = ([], inr messages) ->
  let provider_error e :=
    HTTPException 500 (lit "OpenAI error: " ++ exc_str e) in
  (forall e, temperature body = Raises e ->
     run (chat body) = ([], inl (provider_error e)))
  /\ (forall t e,
        temperature body = Returns t ->
        create (CompletionRequest (resolve_model body) messages t) = Raises e ->
        run (chat body)
        = ([CompletionRequest (resolve_model body) messages t],
           inl (provider_error e)))
  /\ (forall t,
        temperature body = Returns t ->
        create (CompletionRequest (resolve_model body) messages t)
        = Returns (Completion []) ->
        run (chat body)
        = ([CompletionRequest (resolve_model body) messages t],
           inl (HTTPException 500
                  (lit "OpenAI error: list index out of range"))))
  /\ (forall v, body !! lit "temperature" = Some v -> not_a_number v = true ->
        temperature body = Raises (float_error v))
  /\ (length (calls body) <= 1)%nat.
Proof.
  intros Hk Hm provider_error.
  pose proof (chat_guarded _ _ Hk Hm) as Hrun. unfold guarded, request_of in Hrun.
  repeat split.
  - intros e He. by rewrite Hrun, He.
  - intros t e Ht He. by rewrite Hrun, Ht, He.
  - intros t Ht He. by rewrite Hrun, Ht, He.
  - intros v Hv Hn. unfold temperature, get_default. rewrite Hv.
    by destruct v.
  - rewrite (chat_calls_guarded _ _ Hk Hm).
    destruct (temperature body); simpl; lia.
Qed.

(** ** Health check *)

(** C8: /api/health answers [{"ok": True, "provider": p}] where [p] is
    "openai" exactly when a credential is set and "unset" otherwise; the
    handler is a value: it cannot fail and touches nothing. *)
Theorem health_reflects_key :
  health = {[ lit "ok" := VBool true;
              lit "provider" := VStr (if key_set then lit "openai"
                                      else lit "unset") ]}
  /\ health !! lit "ok" = Some (VBool true)
  /\ (health !! lit "provider" = Some (VStr (lit "openai")) <-> key_set = true)
  /\ (health !! lit "provider" = Some (VStr (lit "unset")) <-> key_set = false)
  /\ dom health = {[ lit "ok"; lit "provider" ]}.
Proof.
  unfold health. split; [done|]. split; [done|].
  destruct key_set; repeat split; try done.
Qed.

(** ** Further properties of the chat proxy *)

(** The [else] branch of [resolve_messages]: a message built from
    [input], or the validation error. *)
Lemma resolve_messages_else (body : gmap str value) :
  is_list_at body (lit "messages") = false ->
  (exists s, body !! lit "input" = Some (VStr s) /\ blank s = false
             /\ run (resolve_messages body) = ([], inr [user_message_of s]))
  \/ ((forall s, body !! lit "input" = Some (VStr s) -> blank s = true)
      /\ run (resolve_messages body)
         = ([], inl (HTTPException 400 validation_detail))).
Proof.
  intros Hl.
  destruct (body !! lit "input") as [v|] eqn:Hi.
  - destruct (match v with VStr s => negb (blank s) | _ => false end) eqn:Hv.
    + destruct v as [| | | |s| |]; try done. apply negb_true_iff in Hv.
      left. exists s. repeat split; try done.
      by apply resolve_messages_input.
    + assert (forall s, body !! lit "input" = Some (VStr s) -> blank s = true)
        as Hb.
      { intros s Hs. rewrite Hi in Hs. injection Hs as ->.
        by apply negb_false_iff in Hv. }
      right. split; [|by apply resolve_messages_reject].
      intros s Hs. apply Hb. by rewrite Hi.
  - assert (forall s, body !! lit "input" = Some (VStr s) -> blank s = true)
      as Hb by (intros s Hs; congruence).
    right. split; [done|]. by apply resolve_messages_reject.
Qed.

(** The only error [resolve_messages] raises. *)
Lemma resolve_messages_error (body : gmap str value) (e : http_exception) :
  run (resolve_messages body) = ([], inl e) ->
  e = HTTPException 400 validation_detail
  /\ is_list_at body (lit "messages") = false
  /\ (forall s, body !! lit "input" = Some (VStr s) -> blank s = true).
Proof.
  intros H. destruct (is_list_at body (lit "messages")) eqn:Hl.
  - unfold is_list_at in Hl.
    destruct (body !! lit "messages") as [[| | | | |l|]|] eqn:Hm; try done.
    by rewrite (resolve_messages_list _ _ Hm) in H.
  - destruct (resolve_messages_else _ Hl) as [(s & _ & _ & Hr)|[Hb Hr]];
      rewrite Hr in H; [done|]. by injection H as <-.
Qed.

(** Every way a chat request can end: an answer, the missing-key error,
    the validation error, or a provider error that carries the text of
    an exception; the status is 200, 400 or 500, and the two fixed errors
    come without a provider call. *)
Theorem chat_outcomes (body : gmap str value) :
  ((exists r, result body = inr r)
   \/ (result body = inl (HTTPException 500 (lit "OPENAI_API_KEY missing"))
       /\ key_set = false /\ calls body = [])
   \/ (result body
       = inl (HTTPException 400
                (lit "Provide 'input' (string) or 'messages' (list)."))
       /\ key_set = true /\ calls body = [])
   \/ (key_set = true
       /\ exists exc, result body
                      = inl (HTTPException 500
                               (lit "OpenAI error: " ++ exc_str exc))))
  /\ (status (result body) = 200 \/ status (result body) = 400
      \/ status (result body) = 500).
Proof.
  unfold result, calls. destruct key_set eqn:Hk.
  - destruct (resolve_messages_cases body) as [[e Hr]|[l Hr]].
    + rewrite (chat_rejected _ _ Hk Hr).
      destruct (resolve_messages_error _ _ Hr) as (-> & _ & _).
      split; [right; right; left|right; left]; done.
    + rewrite (chat_guarded _ _ Hk Hr). unfold guarded.
      destruct (temperature body) as [t|e]; simpl.
      * destruct (create _) as [resp|e].
        -- destruct (choices resp) as [|text rest].
           ++ split; [|by right; right]. right; right; right.
              split; [done|].
              by exists (Exception "IndexError" (lit "list index out of range")).
           ++ split; [left; by eexists|by left].
        -- split; [|by right; right]. right; right; right. split; [done|].
           by exists e.
      * split; [|by right; right]. right; right; right. split; [done|].
        by exists e.
  - rewrite (chat_no_key _ Hk). split; [right; left|right; right]; done.
Qed.

(** The provider is called at most once, and it is called exactly when
    the key is set, the messages resolve and [float] accepts the
    temperature. *)
Theorem chat_call_made (body : gmap str value) :
  (length (calls body) <= 1)%nat
  /\ (calls body <> []
      <-> key_set = true
          /\ (exists messages,
                 run (resolve_messages body) = ([], inr messages))
          /\ exists t, temperature body = Returns t).
Proof.
  destruct key_set eqn:Hk.
  - destruct (resolve_messages_cases body) as [[e Hr]|[l Hr]].
    + unfold calls. rewrite (chat_rejected _ _ Hk Hr). simpl.
      split; [lia|]. split; [done|].
      intros (_ & [l Hl] & _). congruence.
    + rewrite (chat_calls_guarded _ _ Hk Hr).
      destruct (temperature body) as [t|e]; simpl.
      * split; [lia|]. split; [|done]. intros _.
        repeat split; by eexists.
      * split; [lia|]. split; [done|]. by intros (_ & _ & [t Ht]).
  - unfold calls. rewrite (chat_no_key _ Hk). simpl.
    split; [lia|]. split; [done|]. by intros (? & _).
Qed.

(** A chat request is answered exactly when the key is set, the messages
    resolve, [float] accepts the temperature and the provider returns at
    least one choice; the answer then has the two fields [model] and
    [output], and [output] is the content of the first choice, [None]
    for a choice without content. The other choices are not read. *)
Theorem chat_answer (body : gmap str value) (r : gmap str value) :
  (result body = inr r
   <-> key_set = true
       /\ exists messages t resp text rest,
           run (resolve_messages body) = ([], inr messages)
           /\ temperature body = Returns t
           /\ create (CompletionRequest (resolve_model body) messages t)
              = Returns resp
           /\ choices resp = text :: rest
           /\ r = {[ lit "model" := resolve_model body;
                     lit "output" := from_option VStr VNone text ]})
  /\ (result body = inr r -> dom r = {[ lit "model"; lit "output" ]}).
Proof.
  assert (result body = inr r
   <-> key_set = true
       /\ exists messages t resp text rest,
           run (resolve_messages body) = ([], inr messages)
           /\ temperature body = Returns t
           /\ create (CompletionRequest (resolve_model body) messages t)
              = Returns resp
           /\ choices resp = text :: rest
           /\ r = {[ lit "model" := resolve_model body;
                     lit "output" := from_option VStr VNone text ]}) as Hiff.
  { unfold result. split.
    - destruct key_set eqn:Hk; [|by rewrite (chat_no_key _ Hk)].
      destruct (resolve_messages_cases body) as [[e Hr]|[l Hr]];
        [by rewrite (chat_rejected _ _ Hk Hr)|].
      rewrite (chat_guarded _ _ Hk Hr). unfold guarded, request_of.
      destruct (temperature body) as [t|e] eqn:Ht; [|done]. simpl.
      destruct (create _) as [resp|e] eqn:Hc; [|done].
      destruct (choices resp) as [|text rest] eqn:Hch; [done|].
      intros [= <-]. split; [done|]. by exists l, t, resp, text, rest.
    - intros (Hk & l & t & resp & text & rest & Hr & Ht & Hc & Hch & ->).
      rewrite (chat_guarded _ _ Hk Hr). unfold guarded, request_of.
      by rewrite Ht, Hc, Hch. }
  split; [done|]. intros H.
  apply Hiff in H as (_ & l & t & resp & text & rest & _ & _ & _ & _ & ->).
  rewrite dom_insert_L, dom_singleton_L. set_solver.
Qed.

(** Trimming a trimmed string changes nothing. *)
Lemma lstrip_id (s : str) :
  (forall c, head s = Some c -> isspace c = false) -> lstrip s = s.
Proof. destruct s as [|a s]; [done|]. intros H. simpl. by rewrite (H a). Qed.

Lemma rstrip_id (s : str) :
  (forall c, last s = Some c -> isspace c = false) -> rstrip s = s.
Proof.
  intros H. unfold rstrip. rewrite lstrip_id.
  - apply reverse_involutive.
  - intros c. rewrite head_reverse. apply H.
Qed.

Lemma strip_idempotent (s : str) : strip (strip s) = strip s.
Proof.
  destruct (strip_spec s) as (l & r & _ & _ & _ & Hh & Hl).
  unfold strip at 1. rewrite (lstrip_id (strip s) Hh). by apply rstrip_id.
Qed.

(** The run of the [try] block reads the body through the model and the
    temperature only. *)
Lemma guarded_same (body body' : gmap str value) (l : list value) :
  resolve_model body' = resolve_model body ->
  temperature body' = temperature body ->
  guarded body' l = guarded body l.
Proof. intros Hm Ht. unfold guarded, request_of. by rewrite Hm, Ht. Qed.

(** The log of a chat request: empty, or the one request built from the
    body. *)
Lemma chat_calls_cases (body : gmap str value) :
  calls body = []
  \/ exists l t, key_set = true
                 /\ run (resolve_messages body) = ([], inr l)
                 /\ temperature body = Returns t
                 /\ calls body = [request_of body l t].
Proof.
  destruct key_set eqn:Hk.
  - destruct (resolve_messages_cases body) as [[e Hr]|[l Hr]].
    + left. unfold calls. by rewrite (chat_rejected _ _ Hk Hr).
    + rewrite (chat_calls_guarded _ _ Hk Hr).
      destruct (temperature body) as [t|e] eqn:Ht; [|by left].
      right. by exists l, t.
  - left. unfold calls. by rewrite (chat_no_key _ Hk).
Qed.

(** The handler reads four fields of the body and no other: two bodies
    that agree on [model], [messages], [input] and [temperature] run
    alike, calls and result. *)
Theorem chat_reads_four_fields (body body' : gmap str value) :
  body' !! lit "model" = body !! lit "model" ->
  body' !! lit "messages" = body !! lit "messages" ->
  body' !! lit "input" = body !! lit "input" ->
  body' !! lit "temperature" = body !! lit "temperature" ->
  run (chat body') = run (chat body).
Proof.
  intros Hmod Hmsg Hin Htemp.
  assert (resolve_messages body' = resolve_messages body) as Hr.
  { unfold resolve_messages, get. by rewrite Hmsg, Hin. }
  assert (resolve_model body' = resolve_model body) as Hm.
  { unfold resolve_model, get. by rewrite Hmod. }
  assert (temperature body' = temperature body) as Ht.
  { unfold temperature, get_default. by rewrite Htemp. }
  unfold chat, complete. by rewrite Hr, Hm, Ht.
Qed.

(** Whitespace around [input] does not matter: two inputs with the same
    trimmed text run alike, and so does the trimmed text itself. *)
Theorem chat_input_trimmed (body : gmap str value) (s s' : str) :
  body !! lit "input" = Some (VStr s) ->
  strip s' = strip s ->
  run (chat (<[lit "input" := VStr s']> body)) = run (chat body)
  /\ run (chat (<[lit "input" := VStr (strip s)]> body)) = run (chat body).
Proof.
  assert (forall s s', body !! lit "input" = Some (VStr s) ->
            strip s' = strip s ->
            run (chat (<[lit "input" := VStr s']> body)) = run (chat body))
    as Hgen.
  { clear s s'. intros s s' Hi Hs.
    destruct (is_list_at body (lit "messages")) eqn:Hl.
    - unfold is_list_at in Hl.
      destruct (body !! lit "messages") as [[| | | | |l|]|] eqn:Hm; try done.
      apply (chat_same_but_input _ _ l Hm).
      intros k Hk. by apply lookup_insert_ne.
    - destruct key_set eqn:Hk; [|by rewrite !chat_no_key].
      assert (is_list_at (<[lit "input" := VStr s']> body) (lit "messages")
              = false) as Hl'.
      { unfold is_list_at in *. by rewrite lookup_insert_ne. }
      assert (<[lit "input" := VStr s']> body !! lit "input"
              = Some (VStr s')) as Hi' by apply lookup_insert_eq.
      destruct (blank s) eqn:Hb.
      + assert (blank s' = true) as Hb'.
        { apply strip_nil. rewrite Hs. by apply strip_nil. }
        rewrite !(chat_rejected _ (HTTPException 400 validation_detail));
          try done.
        * apply resolve_messages_reject; [done|]. congruence.
        * apply resolve_messages_reject; [done|]. congruence.
      + assert (blank s' = false) as Hb'.
        { destruct (blank s') eqn:Hb'; [|done].
          apply strip_nil in Hb'. rewrite Hs in Hb'.
          apply strip_nil in Hb'. congruence. }
        rewrite (chat_guarded _ [user_message_of s] Hk
                   (resolve_messages_input _ _ Hl Hi Hb)).
        rewrite (chat_guarded _ [user_message_of s'] Hk
                   (resolve_messages_input _ _ Hl' Hi' Hb')).
        unfold user_message_of. rewrite Hs. apply guarded_same.
        * unfold resolve_model, get. by rewrite lookup_insert_ne.
        * unfold temperature, get_default. by rewrite lookup_insert_ne. }
  intros Hi Hs. split; [by apply (Hgen s)|].
  apply (Hgen s); [done|]. apply strip_idempotent.
Qed.

(** The temperature goes out as it came: 0.7 when the field is absent, a
    float unchanged (no range is checked), a boolean as 1.0 or 0.0. *)
Theorem chat_temperature_forwarded (body : gmap str value) (messages : list value) :
  key_set = true ->
  run (resolve_messages body) = ([], inr messages) ->
  (body !! lit "temperature" = None ->
   calls body = [CompletionRequest (resolve_model body) messages float_0_7])
  /\ (forall f, body !! lit "temperature" = Some (VFloat f) ->
        calls body = [CompletionRequest (resolve_model body) messages f])
  /\ (forall b : bool, body !! lit "temperature" = Some (VBool b) ->
        calls body = [CompletionRequest (resolve_model body) messages
                        (float_of_int (if b then 1 else 0))]).
Proof.
  intros Hk Hr. rewrite (chat_calls_guarded _ _ Hk Hr).
  unfold temperature, get_default, request_of.
  repeat split; intros; by rewrite H.
Qed.

(** The model sent to the provider is never a false value: not [None],
    not the empty string. *)
Theorem chat_model_truthy (body : gmap str value) :
  truthy (resolve_model body) = true
  /\ forall c, c ∈ calls body -> truthy (req_model c) = true.
Proof.
  assert (truthy (resolve_model body) = true) as Ht.
  { unfold resolve_model, py_or. by destruct (truthy (get _ _)) eqn:H. }
  split; [done|]. intros c Hc.
  destruct (chat_calls_cases body) as [H|(l & t & _ & _ & _ & H)];
    rewrite H in Hc; [by apply elem_of_nil in Hc|].
  by apply list_elem_of_singleton in Hc as ->.
Qed.

(** HTTP 400 is answered exactly when the key is set, [messages] is
    absent or no list, and [input] is absent, no string, or blank after
    trimming. *)
Theorem chat_400_iff (body : gmap str value) :
  status (result body) = 400
  <-> key_set = true
      /\ is_list_at body (lit "messages") = false
      /\ (forall s, body !! lit "input" = Some (VStr s) -> strip s = []).
Proof.
  unfold result. split.
  - destruct key_set eqn:Hk; [|by rewrite (chat_no_key _ Hk)].
    destruct (resolve_messages_cases body) as [[e Hr]|[l Hr]].
    + intros _. destruct (resolve_messages_error _ _ Hr) as (_ & Hl & Hb).
      repeat split; try done. intros s Hs. apply strip_nil. by apply Hb.
    + rewrite (chat_guarded _ _ Hk Hr). unfold guarded.
      destruct (temperature body); [|done]. simpl.
      destruct (create _) as [resp|]; [|done]. by destruct (choices resp).
  - intros (Hk & Hl & Hb).
    rewrite (chat_rejected _ (HTTPException 400 validation_detail)); try done.
    apply resolve_messages_reject; [done|].
    intros s Hs. apply strip_nil. by apply Hb.
Qed.

(** The health check tells what the chat proxy will do: it reports
    "unset" exactly when every chat request fails with the missing-key
    error, and "openai" exactly when none does. *)
Theorem health_predicts_chat :
  (health !! lit "provider" = Some (VStr (lit "unset"))
   <-> forall body,
         result body = inl (HTTPException 500 (lit "OPENAI_API_KEY missing")))
  /\ (health !! lit "provider" = Some (VStr (lit "openai"))
      <-> forall body,
            result body <> inl (HTTPException 500 (lit "OPENAI_API_KEY missing"))).
Proof.
  assert (key_set = true -> forall body,
            result body <> inl (HTTPException 500 (lit "OPENAI_API_KEY missing")))
    as Hset.
  { intros Hk body. unfold result.
    destruct (resolve_messages_cases body) as [[e Hr]|[l Hr]].
    - rewrite (chat_rejected _ _ Hk Hr).
      by destruct (resolve_messages_error _ _ Hr) as (-> & _ & _).
    - rewrite (chat_guarded _ _ Hk Hr). unfold guarded.
      destruct (temperature body); [|done]. simpl.
      destruct (create _) as [resp|]; [|done]. by destruct (choices resp). }
  assert (key_set = false -> forall body,
            result body = inl (HTTPException 500 (lit "OPENAI_API_KEY missing")))
    as Hunset.
  { intros Hk body. unfold result. by rewrite (chat_no_key _ Hk). }
  unfold health. destruct key_set eqn:Hk; repeat split; try done.
  - intros H. by destruct (Hset eq_refl ∅).
  - intros _. by apply Hset.
  - intros _. by apply Hunset.
  - intros H. by destruct (H ∅); apply Hunset.
Qed.

(** The provider receives an empty message list only when the body's
    [messages] is the empty list itself: a list built from [input] is
    never empty. *)
Theorem chat_empty_list_only_from_body (body : gmap str value)
    (c : completion_request) :
  c ∈ calls body ->
  req_messages c = [] ->
  body !! lit "messages" = Some (VList []).
Proof.
  intros Hc He.
  destruct (chat_calls_cases body) as [H|(l & t & _ & Hr & _ & H)];
    rewrite H in Hc; [by apply elem_of_nil in Hc|].
  apply list_elem_of_singleton in Hc as ->. simpl in He. subst l.
  destruct (is_list_at body (lit "messages")) eqn:Hl.
  - unfold is_list_at in Hl.
    destruct (body !! lit "messages") as [[| | | | |l|]|] eqn:Hm; try done.
    rewrite (resolve_messages_list _ _ Hm) in Hr. by injection Hr as ->.
  - destruct (resolve_messages_else _ Hl) as [(s & _ & _ & Hr')|[_ Hr']];
      by rewrite Hr' in Hr.
Qed.

End Server.

Import Sample.

(** ** Root page *)

(** C9, as the handler has it: when [index.html] exists and can be read
    as UTF-8 text, GET / answers that text as HTML with status 200; when
    it does not exist, the answer is exactly the fallback fragment, with
    status 200; when it exists and reading it raises, the exception
    leaves the handler. *)
Theorem root_page :
  (forall text, root (Present (Returns text)) = Returns (MkHTMLResponse text 200))
  /\ root Missing
     = Returns (MkHTMLResponse
                  (lit "<h1>AI Hub Backend</h1><p>Index bulunamad"
                     ++ [0x131%N] ++ lit ".</p>") 200)
  /\ (forall e, root (Present (Raises e)) = Raises e).
Proof. by repeat split. Qed.

(** An [index.html] that exists but is not UTF-8: GET / has no answer of
    its own, [read_text] raises through the handler. *)
Lemma root_unreadable_index_fails :
  root (Present (Raises undecodable)) = Raises undecodable
  /\ ~ (exists r, root (Present (Raises undecodable)) = Returns r
                  /\ html_status r = 200).
Proof.
  split; [reflexivity|]. intros [r [Hr _]]. discriminate Hr.
Qed.

(** ** The handlers on concrete requests *)

(** [{"input": "  Hello  "}]: one call, trimmed input, default model,
    temperature 0.7. *)
Example chat_hello :
  run (chat api_key float_of_str float_error create_ok body_hello)
  = ([CompletionRequest (VStr (lit "gpt-4o-mini"))
        [user_message (lit "Hello")] float_0_7],
     inr {[ lit "model" := VStr (lit "gpt-4o-mini");
            lit "output" := VStr (lit "Hi!") ]}).
Proof. reflexivity. Qed.

(** [{}] is refused. *)
Example chat_empty_body :
  run (chat api_key float_of_str float_error create_ok ∅)
  = ([], inl (HTTPException 400
                (lit "Provide 'input' (string) or 'messages' (list)."))).
Proof. reflexivity. Qed.

(** Both [messages] and [input]: [messages] goes out, malformed element
    included. *)
Example chat_both :
  fst (run (chat api_key float_of_str float_error create_ok body_both))
  = [CompletionRequest (VStr (lit "gpt-4o"))
       [user_message (lit "Merhaba"); VInt 7] float_0_7].
Proof. reflexivity. Qed.

(** No-break space and line separator are trimmed as well; the
    zero-width space U+200B is no whitespace. *)
Example strip_unicode :
  strip ([0xA0; 0x2028]%N ++ lit "a b" ++ [0x3000; 0x0A]%N) = lit "a b"
  /\ strip [0x200B%N; 0x20%N] = [0x200B%N].
Proof. by split. Qed.

(** [float(True)], [float(2**53 + 1)] (a tie, rounded to even) and an
    [int] beyond the doubles. *)
Example float_of_int_values :
  float_of_int 1 = S754_finite false 4503599627370496 (-52)
  /\ float_of_int (2 ^ 53 + 1) = S754_finite false 4503599627370496 1
  /\ py_float float_of_str float_error (VInt (2 ^ 1024))
     = Raises (Exception "OverflowError" (lit "int too large to convert to float")).
Proof. by vm_compute. Qed.

(** 0.7 is a double of 53 bits, and no double is nearer to 7/10: the
    error is 4 parts in 10 * 2^53, less than half a unit in the last
    place. *)
Example float_0_7_nearest :
  bounded 53 1024 6305039478318694 (-53) = true
  /\ 10 * 6305039478318694 - 7 * 2 ^ 53 = -4.
Proof. by vm_compute. Qed.

(** ** The theorems at concrete requests *)

(** [{"messages": []}] with a credential: answered with 200, not 400,
    although [messages] is empty and there is no [input]. *)
Lemma empty_messages_break_invariant :
  key_set api_key = true
  /\ status (result api_key float_of_str float_error create_ok body_no_messages)
     = 200
  /\ status (result api_key float_of_str float_error create_ok body_no_messages)
     <> 400
  /\ ~ ChatRequest_invariant body_no_messages.
Proof.
  repeat split; try done.
  intros [[l [Hl Hne]]|[s [Hs _]]].
  - vm_compute in Hl. by injection Hl as <-.
  - vm_compute in Hs. discriminate Hs.
Qed.

Lemma chat_missing_key_500_witness :
  key_set None = false
  /\ run (chat None float_of_str float_error create_ok body_blank)
     = ([], inl (HTTPException 500 (lit "OPENAI_API_KEY missing")))
  /\ status (result None float_of_str float_error create_ok body_blank) = 500
  /\ calls None float_of_str float_error create_ok body_blank = [].
Proof.
  split; [reflexivity|].
  apply (chat_missing_key_500 None float_of_str float_error create_ok body_blank).
  reflexivity.
Defined.

Lemma chat_blank_input_400_witness :
  key_set api_key = true
  /\ is_list_at body_blank (lit "messages") = false
  /\ run (chat api_key float_of_str float_error create_ok body_blank)
     = ([], inl (HTTPException 400
                   (lit "Provide 'input' (string) or 'messages' (list).")))
  /\ status (result api_key float_of_str float_error create_ok body_blank) = 400
  /\ calls api_key float_of_str float_error create_ok body_blank = [].
Proof.
  split; [reflexivity|]. split; [reflexivity|].
  apply (chat_blank_input_400 api_key float_of_str float_error create_ok
           body_blank); [reflexivity|reflexivity|].
  intros s Hs. vm_compute in Hs. injection Hs as <-. reflexivity.
Defined.

Lemma chat_input_normalized_witness :
  is_list_at body_hello (lit "messages") = false
  /\ body_hello !! lit "input" = Some (VStr (lit "  Hello  "))
  /\ blank (lit "  Hello  ") = false
  /\ calls api_key float_of_str float_error create_ok body_hello
     = [CompletionRequest (VStr (lit "gpt-4o-mini"))
          [user_message (lit "Hello")] float_0_7].
Proof.
  repeat (split; [reflexivity|]).
  destruct (chat_input_normalized api_key float_of_str float_error create_ok
              body_hello (lit "  Hello  ") eq_refl eq_refl eq_refl)
    as (_ & _ & Hcalls & _).
  exact (Hcalls eq_refl).
Defined.

Lemma chat_messages_verbatim_witness :
  body_both !! lit "messages"
  = Some (VList [user_message (lit "Merhaba"); VInt 7])
  /\ calls api_key float_of_str float_error create_ok body_both
     = [CompletionRequest (VStr (lit "gpt-4o"))
          [user_message (lit "Merhaba"); VInt 7] float_0_7]
  /\ run (chat api_key float_of_str float_error create_ok
            (delete (lit "input") body_both))
     = run (chat api_key float_of_str float_error create_ok body_both).
Proof.
  split; [reflexivity|].
  destruct (chat_messages_verbatim api_key float_of_str float_error create_ok
              body_both [user_message (lit "Merhaba"); VInt 7] eq_refl)
    as (_ & _ & Hcalls & _ & Hdel).
  split; [exact (Hcalls eq_refl)|exact Hdel].
Defined.

Lemma chat_empty_messages_accepted_witness :
  body_no_messages !! lit "messages" = Some (VList [])
  /\ status (result api_key float_of_str float_error create_down
               body_no_messages) <> 400
  /\ calls api_key float_of_str float_error create_down body_no_messages
     = [CompletionRequest (VStr (lit "gpt-4o-mini")) [] float_0_7].
Proof.
  split; [reflexivity|].
  destruct (chat_empty_messages_accepted api_key float_of_str float_error
              create_down body_no_messages eq_refl)
    as (Hstatus & _ & _ & Hcalls & _).
  split; [exact Hstatus|exact (Hcalls eq_refl)].
Defined.

Lemma chat_accepted_shape_witness :
  key_set api_key = true
  /\ status (result api_key float_of_str float_error create_ok body_hello) <> 400
  /\ accepted_shape body_hello.
Proof.
  split; [reflexivity|].
  assert (status (result api_key float_of_str float_error create_ok body_hello)
          <> 400) as Hstatus by (vm_compute; discriminate).
  split; [exact Hstatus|].
  exact (proj1 (chat_accepted_shape api_key float_of_str float_error create_ok
                  body_hello eq_refl Hstatus)).
Defined.

Lemma chat_provider_error_500_witness :
  key_set api_key = true
  /\ run (resolve_messages body_bad_temperature)
     = ([], inr [user_message (lit "hi")])
  /\ run (chat api_key float_of_str float_error create_ok body_bad_temperature)
     = ([], inl (HTTPException 500
                   (lit "OpenAI error: float() argument must be a string or a real number, not 'NoneType'")))
  /\ run (chat api_key float_of_str float_error create_down body_hello)
     = ([CompletionRequest (VStr (lit "gpt-4o-mini"))
           [user_message (lit "Hello")] float_0_7],
        inl (HTTPException 500 (lit "OpenAI error: Connection error.")))
  /\ run (chat api_key float_of_str float_error create_empty body_hello)
     = ([CompletionRequest (VStr (lit "gpt-4o-mini"))
           [user_message (lit "Hello")] float_0_7],
        inl (HTTPException 500 (lit "OpenAI error: list index out of range"))).
Proof.
  split; [reflexivity|]. split; [reflexivity|].
  destruct (chat_provider_error_500 api_key float_of_str float_error create_ok
              body_bad_temperature [user_message (lit "hi")] eq_refl eq_refl)
    as (Hfloat & _ & _ & Hnan & _).
  destruct (chat_provider_error_500 api_key float_of_str float_error create_down
              body_hello [user_message (lit "Hello")] eq_refl eq_refl)
    as (_ & Hdown & _).
  destruct (chat_provider_error_500 api_key float_of_str float_error create_empty
              body_hello [user_message (lit "Hello")] eq_refl eq_refl)
    as (_ & _ & Hempty & _).
  split; [|split].
  - exact (Hfloat _ (Hnan VNone eq_refl eq_refl)).
  - exact (Hdown float_0_7 _ eq_refl eq_refl).
  - exact (Hempty float_0_7 eq_refl eq_refl).
Defined.

Lemma chat_reads_four_fields_witness :
  body_extra !! lit "model" = body_both !! lit "model"
  /\ body_extra !! lit "messages" = body_both !! lit "messages"
  /\ body_extra !! lit "input" = body_both !! lit "input"
  /\ body_extra !! lit "temperature" = body_both !! lit "temperature"
  /\ body_extra !! lit "user" <> body_both !! lit "user"
  /\ run (chat api_key float_of_str float_error create_ok body_extra)
     = run (chat api_key float_of_str float_error create_ok body_both).
Proof.
  repeat (split; [reflexivity|]). split; [discriminate|].
  apply (chat_reads_four_fields api_key float_of_str float_error create_ok
           body_both body_extra); reflexivity.
Defined.

Lemma chat_input_trimmed_witness :
  body_hello !! lit "input" = Some (VStr (lit "  Hello  "))
  /\ strip (lit "Hello ") = strip (lit "  Hello  ")
  /\ run (chat api_key float_of_str float_error create_ok
            (<[lit "input" := VStr (lit "Hello ")]> body_hello))
     = run (chat api_key float_of_str float_error create_ok body_hello).
Proof.
  repeat (split; [reflexivity|]).
  exact (proj1 (chat_input_trimmed api_key float_of_str float_error create_ok
                  body_hello (lit "  Hello  ") (lit "Hello ")
                  eq_refl eq_refl)).
Defined.

Lemma chat_temperature_forwarded_witness :
  key_set api_key = true
  /\ run (resolve_messages body_half) = ([], inr [user_message (lit "hi")])
  /\ calls api_key float_of_str float_error create_ok body_half
     = [CompletionRequest (VStr (lit "gpt-4o-mini"))
          [user_message (lit "hi")] half].
Proof.
  repeat (split; [reflexivity|]).
  destruct (chat_temperature_forwarded api_key float_of_str float_error
              create_ok body_half [user_message (lit "hi")] eq_refl eq_refl)
    as (_ & Hfloat & _).
  exact (Hfloat half eq_refl).
Defined.

Lemma chat_empty_list_only_from_body_witness :
  CompletionRequest (VStr (lit "gpt-4o-mini")) [] float_0_7
    ∈ calls api_key float_of_str float_error create_ok body_no_messages
  /\ body_no_messages !! lit "messages" = Some (VList []).
Proof.
  assert (CompletionRequest (VStr (lit "gpt-4o-mini")) [] float_0_7
            ∈ calls api_key float_of_str float_error create_ok body_no_messages)
    as Hc by apply list_elem_of_here.
  split; [exact Hc|].
  exact (chat_empty_list_only_from_body api_key float_of_str float_error
           create_ok body_no_messages _ Hc eq_refl).
Defined.
